(** * URL shortener backend: the handlers of [main.py] over a document store

    The service keeps one collection, [urls], of documents with the keys
    [short_code], [original_url], [created_at] and [clicks].  The three
    handlers [shorten_url], [redirect_to_url] and [get_url_stats] talk to it
    through [find_one], [insert_one] and [update_one] only.

    Modelling choices, all read off the source:
    - the collection is a list of documents in insertion order; the source
      creates no index, so the list may hold several documents with the same
      [short_code] or [original_url], [find_one] and [update_one] act on the
      first match and [insert_one] appends unconditionally;
    - times are integers, in microseconds as [datetime] has them; the
      collection keeps a date to the millisecond only, so [insert_one]
      stores [created_at] cut to a whole number of milliseconds and that is
      what [find_one] reads back;
    - the module-level random generator is the sequence [entropy] of the
      indices it hands to [random.choice], call after call, with the cursor
      [drawn] counting the calls; the library's own way of getting an index
      from raw bits is left out.  The library only hands out indices below
      the length asked for, and on those the reduction in [randbelow] does
      nothing;
    - [datetime.utcnow()] is the argument [now] of [shorten_url];
    - handlers are computations in a state-and-exception monad over [World];
      the [while] loop of [shorten_url] takes fuel and answers [None] when
      the fuel does not suffice. *)

From Stdlib Require Import ZArith Ascii String.
From stdpp Require Import base option list strings.

Local Open Scope Z_scope.
Local Open Scope string_scope.

(** ** Python's [string] constants *)

Definition ascii_lowercase : string := "abcdefghijklmnopqrstuvwxyz".
Definition ascii_uppercase : string := "ABCDEFGHIJKLMNOPQRSTUVWXYZ".
Definition ascii_letters : string := ascii_lowercase ++ ascii_uppercase.
Definition digits : string := "0123456789".

(** ** Documents of the [urls] collection and the world *)

Record document := Doc {
  short_code : string;
  original_url : string;
  created_at : Z;
  clicks : Z
}.

Record World := MkWorld {
  urls : list document;
  entropy : nat -> nat;
  drawn : nat
}.

Definition set_urls (l : list document) (w : World) : World :=
  MkWorld l (entropy w) (drawn w).

Definition set_drawn (n : nat) (w : World) : World :=
  MkWorld (urls w) (entropy w) n.

(** ** Exceptions and the handler monad *)

Inductive exn :=
  | HTTPException (status_code : Z) (detail : string)
  | IndexError.

Inductive outcome (A : Type) :=
  | Return (a : A)
  | Raise (e : exn).
Arguments Return {A} a.
Arguments Raise {A} e.

Definition M (A : Type) : Type := World -> outcome A * World.

Definition ret {A} (a : A) : M A := fun w => (Return a, w).
Definition raise {A} (e : exn) : M A := fun w => (Raise e, w).
Definition bind {A B} (m : M A) (k : A -> M B) : M B :=
  fun w => match m w with
           | (Return a, w') => k a w'
           | (Raise e, w') => (Raise e, w')
           end.

Notation "x <~ m ; k" := (bind m (fun x => k))
  (at level 20, m at level 100, k at level 200, only parsing).
Notation "m ;~ k" := (bind m (fun _ => k))
  (at level 100, k at level 200, only parsing, right associativity).

(** Computations that may also fail to terminate: [None] is a loop that ran
    out of fuel. *)
Definition D (A : Type) : Type := World -> option (outcome A * World).

Definition lift {A} (m : M A) : D A := fun w => Some (m w).
Definition retD {A} (a : A) : D A := lift (ret a).
Definition bindD {A B} (m : D A) (k : A -> D B) : D B :=
  fun w => match m w with
           | Some (Return a, w') => k a w'
           | Some (Raise e, w') => Some (Raise e, w')
           | None => None
           end.

Notation "x <~~ m ; k" := (bindD m (fun x => k))
  (at level 20, m at level 100, k at level 200, only parsing).

(** ** [random] *)

(** The index that [random.choice] gets for a sequence of length [n]: the
    next entry of [entropy].  The library hands out indices below [n] only;
    the reduction makes the definition total on any sequence and changes no
    index below [n]. *)
Definition randbelow (n : nat) : M nat :=
  fun w => (Return (entropy w (drawn w) mod n)%nat, set_drawn (S (drawn w)) w).

Definition choice (seq : list ascii) : M ascii :=
  match seq with
  | [] => raise IndexError
  | _ => i <~ randbelow (length seq);
         match seq !! i with
         | Some c => ret c
         | None => raise IndexError
         end
  end.

(** ** The collection's operations *)

Definition by_original_url (u : string) (d : document) : Prop := original_url d = u.
Definition by_short_code (c : string) (d : document) : Prop := short_code d = c.

Global Instance by_original_url_dec u d : Decision (by_original_url u d).
Proof. unfold by_original_url. apply _. Defined.
Global Instance by_short_code_dec c d : Decision (by_short_code c d).
Proof. unfold by_short_code. apply _. Defined.

Definition find_one (P : document -> Prop) `{!forall d, Decision (P d)}
    : M (option document) :=
  fun w => (Return (snd <$> list_find P (urls w)), w).

(** A date as the collection keeps it: whole milliseconds. *)
Definition bson_datetime (t : Z) : Z := 1000 * (t / 1000).

(** A document as the collection keeps it. *)
Definition stored (d : document) : document :=
  Doc (short_code d) (original_url d) (bson_datetime (created_at d)) (clicks d).

Definition insert_one (d : document) : M unit :=
  fun w => (Return tt, set_urls (urls w ++ [stored d]) w).

Definition inc_clicks (n : Z) (d : document) : document :=
  Doc (short_code d) (original_url d) (created_at d) (clicks d + n).

Definition update_one (P : document -> Prop) `{!forall d, Decision (P d)}
    (upd : document -> document) : M unit :=
  fun w => (Return tt,
            match list_find P (urls w) with
            | Some (i, _) => set_urls (alter upd i (urls w)) w
            | None => w
            end).

(** ** Responses *)

Module URLResponse.
Record t := mk { short_url : string; original_url : string; created_at : Z }.
End URLResponse.

Module Redirect.
Record t := mk { url : string }.
End Redirect.

Module Stats.
Record t := mk {
  short_code : string; original_url : string; created_at : Z; clicks : Z }.
End Stats.

(** ** The handlers *)

Definition characters : list ascii :=
  list_ascii_of_string (ascii_letters ++ digits).

Fixpoint choices (n : nat) (seq : list ascii) : M (list ascii) :=
  match n with
  | O => ret []
  | S k => c <~ choice seq; cs <~ choices k seq; ret (c :: cs)
  end.

(** [''.join(random.choice(characters) for _ in range(length))]; [range] of
    a negative length is empty. *)
Definition generate_short_code (length : Z) : M string :=
  cs <~ choices (Z.to_nat length) characters;
  ret (string_of_list_ascii cs).

(** The loop [while await urls.find_one({"short_code": short_code}):
    short_code = generate_short_code()]. *)
Fixpoint while_code_found (fuel : nat) (short_code : string) : D string :=
  match fuel with
  | O => fun _ => None
  | S fuel' =>
      found <~~ lift (find_one (by_short_code short_code));
      match found with
      | Some _ =>
          short_code <~~ lift (generate_short_code 6);
          while_code_found fuel' short_code
      | None => retD short_code
      end
  end.

Definition shorten_url (fuel : nat) (now : Z) (url_input : string)
    : D URLResponse.t :=
  existing_url <~~ lift (find_one (by_original_url url_input));
  match existing_url with
  | Some existing_url =>
      retD (URLResponse.mk (short_code existing_url)
                           (original_url existing_url)
                           (created_at existing_url))
  | None =>
      short_code <~~ lift (generate_short_code 6);
      short_code <~~ while_code_found fuel short_code;
      let url_data := Doc short_code url_input now 0 in
      _ <~~ lift (insert_one url_data);
      retD (URLResponse.mk short_code url_input (created_at url_data))
  end.

Definition redirect_to_url (code : string) : M Redirect.t :=
  url_data <~ find_one (by_short_code code);
  match url_data with
  | None => raise (HTTPException 404 "URL not found")
  | Some url_data =>
      update_one (by_short_code code) (inc_clicks 1) ;~
      ret (Redirect.mk (original_url url_data))
  end.

Definition get_url_stats (code : string) : M Stats.t :=
  url_data <~ find_one (by_short_code code);
  match url_data with
  | None => raise (HTTPException 404 "URL not found")
  | Some url_data =>
      ret (Stats.mk (short_code url_data) (original_url url_data)
                    (created_at url_data) (clicks url_data))
  end.

(** ** The alphabet, as the specification words it: upper-case letters,
    lower-case letters and digits. *)

Definition is_upper (a : ascii) : bool :=
  (65 <=? nat_of_ascii a)%nat && (nat_of_ascii a <=? 90)%nat.
Definition is_lower (a : ascii) : bool :=
  (97 <=? nat_of_ascii a)%nat && (nat_of_ascii a <=? 122)%nat.
Definition is_digit (a : ascii) : bool :=
  (48 <=? nat_of_ascii a)%nat && (nat_of_ascii a <=? 57)%nat.
Definition alnum (a : ascii) : bool := is_upper a || is_lower a || is_digit a.

(** ** Sequences of calls *)

Inductive request :=
  | Shorten (now : Z) (url_input : string)
  | RedirectTo (short_code : string)
  | StatsOf (short_code : string).

(** The world after one request; the fuel is for the loop of [shorten_url]. *)
Definition handle (fuel : nat) (r : request) (w : World) : option World :=
  match r with
  | Shorten now url_input => snd <$> shorten_url fuel now url_input w
  | RedirectTo c => Some (snd (redirect_to_url c w))
  | StatsOf c => Some (snd (get_url_stats c w))
  end.

(** Requests served one after the other, each with its own fuel. *)
Fixpoint run (rs : list (nat * request)) (w : World) : option World :=
  match rs with
  | [] => Some w
  | (fuel, r) :: rs' =>
      match handle fuel r w with
      | Some w' => run rs' w'
      | None => None
      end
  end.

(** [n] calls of [redirect_to_url] in a row: the responses, in order, and the
    final world. *)
Fixpoint redirects (n : nat) (c : string) (w : World)
    : list (outcome Redirect.t) * World :=
  match n with
  | O => ([], w)
  | S k =>
      let (o, w') := redirect_to_url c w in
      let (os, w'') := redirects k c w' in
      (o :: os, w'')
  end.

(** How many requests of [rs] are redirects to the code [c]. *)
Fixpoint redirect_count (c : string) (rs : list (nat * request)) : Z :=
  match rs with
  | [] => 0
  | (_, RedirectTo c') :: rs' =>
      (if decide (c' = c) then 1 else 0) + redirect_count c rs'
  | _ :: rs' => redirect_count c rs'
  end.

(** The codes in use, in insertion order. *)
Definition codes (w : World) : list string := short_code <$> urls w.

(** The [k]-th candidate of an allocation that starts in [w]: the code spelt
    by the six draws from position [drawn w + 6 * k]. *)
Definition candidate (w : World) (k : nat) : string :=
  match fst (generate_short_code 6 (set_drawn (drawn w + 6 * k) w)) with
  | Return code => code
  | Raise _ => ""
  end.

(** ** Concrete worlds *)

Definition url_a : string := "https://example.com/a".
Definition url_b : string := "https://example.com/b".

(** An empty collection and a generator whose [i]-th index is [i]. *)
Definition w_empty : World := MkWorld [] (fun i => i) 0.

(** One document, with the code that the draws 0..5 spell. *)
Definition doc_a : document := Doc "abcdef" url_a 17000 0.
Definition w_one : World := MkWorld [doc_a] (fun i => i) 6.

(** A second document with the code of [doc_a]. *)
Definition doc_dup : document := Doc "abcdef" url_b 18000 0.

(** A generator that spells the same code twice before a new one: empty
    collection, and the collection after the first submission. *)
Definition entropy_repeat (i : nat) : nat := if (i <? 12)%nat then O else i.
Definition w_repeat : World := MkWorld [] entropy_repeat 0.
Definition w_collide : World :=
  MkWorld [Doc "aaaaaa" url_a 17000 0] entropy_repeat 6.
Definition w_two : World :=
  MkWorld [Doc "aaaaaa" url_a 17000 0; Doc "mnopqr" url_b 18000 0] entropy_repeat 18.

(** A generator that only ever spells the code of the one document. *)
Definition w_stuck : World := MkWorld [Doc "aaaaaa" url_a 17000 0] (fun _ => O) 6.

(** Two submissions; a mixed run after the first document exists. *)
Definition rs_submit : list (nat * request) :=
  [(1%nat, Shorten 17250 url_a); (2%nat, Shorten 18750 url_b)].
Definition rs_mixed : list (nat * request) :=
  [(0%nat, RedirectTo "abcdef"); (0%nat, StatsOf "abcdef");
   (1%nat, Shorten 18750 url_a); (0%nat, RedirectTo "zzzzzz");
   (0%nat, RedirectTo "abcdef")].

(** ** Module-level configuration *)

(** [s.split(sep)] for a separator of one character, as in [.split(",")]:
    every occurrence of the separator ends a piece, and pieces may be
    empty. *)
Fixpoint split (sep : ascii) (s : string) : list string :=
  match s with
  | EmptyString => [EmptyString]
  | String c s' =>
      if decide (c = sep) then EmptyString :: split sep s'
      else match split sep s' with
           | piece :: pieces => String c piece :: pieces
           | [] => [String c EmptyString]
           end
  end.

(** [os.getenv(key, default)] over the process environment. *)
Definition getenv (environ : string -> option string) (key default : string)
    : string :=
  match environ key with
  | Some v => v
  | None => default
  end.

Definition ALLOWED_ORIGINS (environ : string -> option string) : list string :=
  split ","
    (getenv environ "ALLOWED_ORIGINS" "https://url-shortner-lime-one.vercel.app/").

(** How many times a character occurs in a string. *)
Fixpoint occurrences (a : ascii) (s : string) : nat :=
  match s with
  | EmptyString => O
  | String c s' => ((if decide (c = a) then 1 else 0) + occurrences a s')%nat
  end.

(** ** Vocabulary for the further properties *)

(** The URLs submitted by the requests of a run, in order. *)
Fixpoint submitted (rs : list (nat * request)) : list string :=
  match rs with
  | [] => []
  | (_, Shorten _ u) :: rs' => u :: submitted rs'
  | _ :: rs' => submitted rs'
  end.

(** A well-formed code: six symbols of the alphabet. *)
Definition is_code (c : string) : bool :=
  (String.length c =? 6)%nat && forallb alnum (list_ascii_of_string c).

(** The position of a symbol in [characters] (0 when it is not there). *)
Definition index_of (c : ascii) : nat :=
  match list_find (eq c) characters with
  | Some (i, _) => i
  | None => O
  end.

(** Draws that spell [cs] from the cursor [d0] on. *)
Definition entropy_for (cs : list ascii) (d0 : nat) (p : nat) : nat :=
  match cs !! (p - d0)%nat with
  | Some c => index_of c
  | None => O
  end.

(** The URL that a request adds to the collection, if any: a submission of
    a URL that no document carries. *)
Definition new_url (r : request) (w : World) : list string :=
  match r with
  | Shorten _ u => if decide (u ∈ original_url <$> urls w) then [] else [u]
  | _ => []
  end.

(** The URLs of [us] that are not in [seen], each at its first occurrence. *)
Fixpoint first_submissions (seen us : list string) : list string :=
  match us with
  | [] => []
  | u :: us' =>
      if decide (u ∈ seen) then first_submissions seen us'
      else u :: first_submissions (seen ++ [u]) us'
  end.

(** A document as the handlers make them: a well-formed code and a counter
    that is not negative. *)
Definition well_formed (d : document) : Prop :=
  is_code (short_code d) = true /\ 0 <= clicks d.

(** ** Concrete inputs for the further properties *)

(** A run with a redirect and a repeated submission, and the world it
    reaches from [w_empty]. *)
Definition rs_resubmit : list (nat * request) :=
  [(1%nat, Shorten 17250 url_a); (0%nat, RedirectTo "abcdef");
   (1%nat, Shorten 18750 url_b); (1%nat, Shorten 19500 url_a)].
Definition doc_a1 : document := Doc "abcdef" url_a 17000 1.
Definition doc_b : document := Doc "ghijkl" url_b 18000 0.
Definition w_resubmitted : World := MkWorld [doc_a1; doc_b] (fun i => i) 12.

(** The world that [rs_mixed] reaches from [w_one]. *)
Definition w_mixed : World := MkWorld [Doc "abcdef" url_a 17000 2] (fun i => i) 6.

(** A generator that, three calls later, hands out the indices that the
    generator of [w_empty] hands out from the start. *)
Definition w_shifted : World := MkWorld [doc_a] (fun i => (i - 3)%nat) 3.

(** Environments: the variable not set, and set to two origins. *)
Definition environ_unset (key : string) : option string := None.
Definition environ_two (key : string) : option string :=
  if decide (key = "ALLOWED_ORIGINS")
  then Some "http://localhost:3000,https://example.org"
  else None.

(** * Properties *)

(** ** The state-and-exception monad *)

Lemma set_drawn_id (w : World) : set_drawn (drawn w) w = w.
Proof. by destruct w. Qed.

(** ** The generator *)

Section Generator.

Lemma characters_length : length characters = 62%nat.
Proof. reflexivity. Qed.

Lemma characters_NoDup : NoDup characters.
Proof. refine (bool_decide_unpack _ _). by vm_compute. Qed.

Lemma characters_alnum (a : ascii) : a ∈ characters <-> alnum a = true.
Proof.
  assert (E : bool_decide (a ∈ characters) = alnum a).
  { destruct a as [[] [] [] [] [] [] [] []]; by vm_compute. }
  rewrite <- E. symmetry. apply bool_decide_eq_true.
Qed.

Lemma choice_spec (seq : list ascii) (w : World) :
  seq <> [] ->
  exists c, seq !! (entropy w (drawn w) mod length seq)%nat = Some c /\
            choice seq w = (Return c, set_drawn (S (drawn w)) w).
Proof.
  intros Hne.
  destruct (lookup_lt_is_Some_2 seq (entropy w (drawn w) mod length seq)%nat)
    as [c Hc].
  { apply Nat.mod_upper_bound. by destruct seq. }
  exists c. split; [done |].
  destruct seq as [| a seq']; [done |].
  unfold choice, bind, randbelow. by rewrite Hc.
Qed.

Lemma choices_spec (n : nat) (seq : list ascii) (w : World) :
  seq <> [] ->
  exists cs, choices n seq w = (Return cs, set_drawn (drawn w + n) w) /\
             length cs = n /\ Forall (fun c => c ∈ seq) cs.
Proof.
  intros Hne. revert w. induction n as [| n IH]; intros w.
  - exists []. cbn. rewrite Nat.add_0_r, set_drawn_id. by repeat split.
  - destruct (choice_spec seq w Hne) as (c & Hc & Ec).
    destruct (IH (set_drawn (S (drawn w)) w)) as (cs & Ecs & Hlen & Hall).
    exists (c :: cs). cbn [choices]. unfold bind at 1. rewrite Ec.
    unfold bind at 1. rewrite Ecs. unfold ret. split; [| split].
    + f_equal. cbn. unfold set_drawn. cbn. f_equal. lia.
    + cbn. by rewrite Hlen.
    + constructor; [by eapply list_elem_of_lookup_2 | done].
Qed.

Lemma string_length_of_list (cs : list ascii) :
  String.length (string_of_list_ascii cs) = length cs.
Proof. induction cs as [| c cs IH]; cbn; [done | by rewrite IH]. Qed.

(** The generator returns, leaves the collection alone and consumes one
    draw per symbol. *)
Lemma generate_short_code_spec (n : Z) (w : World) :
  exists cs, generate_short_code n w =
               (Return (string_of_list_ascii cs),
                set_drawn (drawn w + Z.to_nat n) w) /\
             length cs = Z.to_nat n /\ Forall (fun c => c ∈ characters) cs.
Proof.
  destruct (choices_spec (Z.to_nat n) characters w) as (cs & E & Hlen & Hall).
  { discriminate. }
  exists cs. unfold generate_short_code, bind. by rewrite E.
Qed.

End Generator.

(** C8 (code shape).  For a length [n >= 0] the generator returns a code of
    exactly [n] symbols, each taken from [characters], that is an upper-case
    letter, a lower-case letter or a digit; [characters] has 62 distinct
    symbols and is exactly that alphabet; the call made by [shorten_url],
    with the default length, yields six symbols. *)
Theorem generate_short_code_shape (n : Z) (w : World) :
  0 <= n ->
  (exists code w',
     generate_short_code n w = (Return code, w') /\
     Z.of_nat (String.length code) = n /\
     Forall (fun a => a ∈ characters /\ alnum a = true)
            (list_ascii_of_string code)) /\
  (exists code w',
     generate_short_code 6 w = (Return code, w') /\ String.length code = 6%nat) /\
  length characters = 62%nat /\ NoDup characters /\
  (forall a, a ∈ characters <-> alnum a = true).
Proof.
  intros Hn. split; [| split; [| split; [| split]]].
  - destruct (generate_short_code_spec n w) as (cs & E & Hlen & Hall).
    eexists _, _. split; [exact E |]. split.
    + rewrite string_length_of_list, Hlen. lia.
    + rewrite list_ascii_of_string_of_list_ascii.
      eapply Forall_impl; [exact Hall |]. intros a Ha. split; [done |].
      by apply characters_alnum.
  - destruct (generate_short_code_spec 6 w) as (cs & E & Hlen & _).
    eexists _, _. split; [exact E |]. by rewrite string_length_of_list, Hlen.
  - apply characters_length.
  - apply characters_NoDup.
  - apply characters_alnum.
Qed.

(** ** The collection *)

Section Store.

Context (P : document -> Prop) `{!forall d, Decision (P d)}.

Lemma find_one_eq (w : World) :
  find_one P w = (Return (snd <$> list_find P (urls w)), w).
Proof. reflexivity. Qed.

Lemma list_find_absent (l : list document) :
  list_find P l = None <-> forall d, d ∈ l -> ~ P d.
Proof. rewrite list_find_None, Forall_forall. done. Qed.

(** The first match stays the first match when it is updated in place by
    a function that keeps it a match. *)
Lemma list_find_alter (upd : document -> document) l i d :
  list_find P l = Some (i, d) -> P (upd d) ->
  list_find P (alter upd i l) = Some (i, upd d).
Proof.
  rewrite !list_find_Some. intros (Hi & _ & Hleast) HP. split_and!.
  - by rewrite list_lookup_alter_eq, Hi.
  - done.
  - intros j y Hj Hlt. rewrite list_lookup_alter_ne in Hj by lia. eauto.
Qed.

(** A document appended after a list without match is the first match. *)
Lemma list_find_snoc l d :
  list_find P l = None -> P d -> list_find P (l ++ [d]) = Some (length l, d).
Proof.
  intros Hnone HP. rewrite list_find_app_r by done. cbn.
  by rewrite decide_True.
Qed.

End Store.

Lemma inc_clicks_0 (d : document) : inc_clicks 0 d = d.
Proof. destruct d. unfold inc_clicks. cbn. by rewrite Z.add_0_r. Qed.

Lemma inc_clicks_inc_clicks (a b : Z) (d : document) :
  inc_clicks a (inc_clicks b d) = inc_clicks (b + a) d.
Proof. unfold inc_clicks. cbn. by rewrite Z.add_assoc. Qed.

Lemma codes_alter_inc (n : Z) (i : nat) (l : list document) :
  short_code <$> alter (inc_clicks n) i l = short_code <$> l.
Proof.
  rewrite (list_fmap_alter short_code (inc_clicks n) id).
  - by apply list_alter_id.
  - by apply Forall_forall.
Qed.

(** ** The handlers, case by case *)

Lemma redirect_found (c : string) (w : World) i d :
  list_find (by_short_code c) (urls w) = Some (i, d) ->
  redirect_to_url c w =
    (Return (Redirect.mk (original_url d)),
     set_urls (alter (inc_clicks 1) i (urls w)) w).
Proof.
  intros H. unfold redirect_to_url, bind, find_one, update_one.
  rewrite H. cbn. by rewrite H.
Qed.

Lemma redirect_missing (c : string) (w : World) :
  list_find (by_short_code c) (urls w) = None ->
  redirect_to_url c w = (Raise (HTTPException 404 "URL not found"), w).
Proof.
  intros H. unfold redirect_to_url, bind, find_one. by rewrite H.
Qed.

Lemma stats_found (c : string) (w : World) i d :
  list_find (by_short_code c) (urls w) = Some (i, d) ->
  get_url_stats c w =
    (Return (Stats.mk (short_code d) (original_url d) (created_at d)
                      (clicks d)), w).
Proof.
  intros H. unfold get_url_stats, bind, find_one. by rewrite H.
Qed.

Lemma stats_missing (c : string) (w : World) :
  list_find (by_short_code c) (urls w) = None ->
  get_url_stats c w = (Raise (HTTPException 404 "URL not found"), w).
Proof.
  intros H. unfold get_url_stats, bind, find_one. by rewrite H.
Qed.

Lemma shorten_existing (fuel : nat) (now : Z) (u : string) (w : World) i d :
  list_find (by_original_url u) (urls w) = Some (i, d) ->
  shorten_url fuel now u w =
    Some (Return (URLResponse.mk (short_code d) (original_url d)
                                 (created_at d)), w).
Proof.
  intros H. unfold shorten_url, bindD, lift, find_one. by rewrite H.
Qed.

(** When the loop returns, it returns a code that no document carries, and
    it has changed nothing but the cursor of the generator. *)
Lemma while_code_found_inv (fuel : nat) (code : string) (w : World) r w' :
  while_code_found fuel code w = Some (r, w') ->
  exists code', r = Return code' /\
    list_find (by_short_code code') (urls w) = None /\
    urls w' = urls w /\ entropy w' = entropy w.
Proof.
  revert code w. induction fuel as [| fuel IH]; intros code w; [done |].
  cbn [while_code_found]. unfold bindD at 1, lift at 1. rewrite find_one_eq.
  destruct (list_find (by_short_code code) (urls w)) as [[i d] |] eqn:E; cbn.
  - unfold bindD, lift.
    destruct (generate_short_code_spec 6 w) as (cs & -> & _).
    intros H. apply IH in H as (code' & -> & Hnone & Hu & He).
    exists code'. by repeat split.
  - unfold retD, lift, ret. intros [= <- <-]. exists code. by repeat split.
Qed.

(** A submission of a URL that no document carries either does not return
    or appends one document, with a code that no document carried. *)
Lemma shorten_fresh (fuel : nat) (now : Z) (u : string) (w : World) r w' :
  list_find (by_original_url u) (urls w) = None ->
  shorten_url fuel now u w = Some (r, w') ->
  exists code, r = Return (URLResponse.mk code u now) /\
    list_find (by_short_code code) (urls w) = None /\
    urls w' = (urls w ++ [Doc code u (bson_datetime now) 0])%list /\
    entropy w' = entropy w.
Proof.
  intros Hu. unfold shorten_url, bindD at 1, lift at 1. rewrite find_one_eq, Hu.
  cbn. unfold bindD at 1, lift at 1.
  destruct (generate_short_code_spec 6 w) as (cs & -> & _).
  unfold bindD at 1.
  destruct (while_code_found _ _ _) as [[r3 w3] |] eqn:E; [| done].
  apply while_code_found_inv in E as (code & -> & Hnone & Hu3 & He3).
  cbn. intros [= <- <-]. exists code. cbn. rewrite Hu3. by repeat split.
Qed.

Lemma find_one_Some (P : document -> Prop) `{!forall d, Decision (P d)}
    (w : World) (d : document) :
  fst (find_one P w) = Return (Some d) <->
  exists i, list_find P (urls w) = Some (i, d).
Proof.
  rewrite find_one_eq. cbn. split.
  - destruct (list_find P (urls w)) as [[i d'] |]; [| done].
    cbn. intros [= ->]. by exists i.
  - intros [i ->]. done.
Qed.

Lemma codes_absent (c : string) (w : World) :
  list_find (by_short_code c) (urls w) = None <->
  forall d, d ∈ urls w -> short_code d <> c.
Proof. apply list_find_absent. Qed.

(** ** Redirect and statistics *)

(** The first document that matches, in terms of the collection. *)
Lemma list_find_first (P : document -> Prop) `{!forall d, Decision (P d)}
    (l : list document) (i : nat) (d : document) :
  l !! i = Some d -> P d ->
  (forall j d', (j < i)%nat -> l !! j = Some d' -> ~ P d') ->
  list_find P l = Some (i, d).
Proof.
  intros Hi HP Hleast. apply list_find_Some. split_and!; [done | done |].
  intros j y Hj Hlt. by apply (Hleast j y).
Qed.

(** When a document matches, the lookup yields a document of the collection
    that matches. *)
Lemma list_find_some_match (P : document -> Prop) `{!forall d, Decision (P d)}
    (l : list document) (d : document) :
  d ∈ l -> P d -> exists i d', list_find P l = Some (i, d') /\ d' ∈ l /\ P d'.
Proof.
  intros Hd HP. destruct (list_find_elem_of P l d Hd HP) as [[i d'] E].
  exists i, d'. split; [done |].
  apply list_find_Some in E as (Hi & HP' & _).
  split; [by eapply list_elem_of_lookup_2 | done].
Qed.

Lemma NoDup_fmap_eq {A B} (f : A -> B) (l : list A) (x y : A) :
  NoDup (f <$> l) -> x ∈ l -> y ∈ l -> f x = f y -> x = y.
Proof.
  intros Hnd [i Hi]%list_elem_of_lookup [j Hj]%list_elem_of_lookup Hf.
  assert (i = j) as ->; [| congruence].
  eapply (NoDup_lookup (f <$> l)); [done | |]; rewrite list_lookup_fmap.
  - by rewrite Hi.
  - rewrite Hj. cbn. by rewrite Hf.
Qed.

(** C5 (redirect result).  Let [d] be a document of the collection with the
    code [c].  Then the redirect of [c] returns the stored [original_url] of
    a document of the collection with the code [c]; it is the URL of [d]
    when every document with that code has the URL of [d], when [d] is the
    first document with that code, and when codes are distinct. *)
Theorem redirect_returns_original_url (c : string) (w : World) (d : document) :
  d ∈ urls w -> short_code d = c ->
  (exists d', d' ∈ urls w /\ short_code d' = c /\
     fst (redirect_to_url c w) = Return (Redirect.mk (original_url d'))) /\
  ((forall d', d' ∈ urls w -> short_code d' = c ->
      original_url d' = original_url d) ->
   fst (redirect_to_url c w) = Return (Redirect.mk (original_url d))) /\
  (forall i, urls w !! i = Some d ->
     (forall j d', (j < i)%nat -> urls w !! j = Some d' -> short_code d' <> c) ->
     fst (redirect_to_url c w) = Return (Redirect.mk (original_url d))) /\
  (NoDup (codes w) ->
   fst (redirect_to_url c w) = Return (Redirect.mk (original_url d))).
Proof.
  intros Hd Hc.
  destruct (list_find_some_match (by_short_code c) (urls w) d Hd Hc)
    as (i & d' & E & Hd' & Hc').
  rewrite (redirect_found c w i d' E). cbn [fst]. split_and!.
  - by exists d'.
  - intros Hall. by rewrite (Hall d' Hd' Hc').
  - intros i0 Hi0 Hleast.
    rewrite (list_find_first (by_short_code c) (urls w) i0 d Hi0 Hc Hleast) in E.
    by injection E as _ <-.
  - intros Hnd. do 3 f_equal.
    apply (NoDup_fmap_eq short_code (urls w)); [done | done | done |].
    unfold by_short_code in Hc'. congruence.
Qed.

(** C6 (unknown code).  When no document carries the code, the redirect and
    the statistics handler both raise the 404 exception instead of returning
    a response. *)
Theorem unknown_code_not_found (c : string) (w : World) :
  (forall d, d ∈ urls w -> short_code d <> c) ->
  fst (redirect_to_url c w) = Raise (HTTPException 404 "URL not found") /\
  fst (get_url_stats c w) = Raise (HTTPException 404 "URL not found").
Proof.
  intros H%codes_absent.
  by rewrite (redirect_missing c w H), (stats_missing c w H).
Qed.

(** C10 (redirect error atomicity).  When no document carries the code, the
    redirect raises with the world exactly as it found it: the collection,
    every document in it and every counter are unchanged. *)
Theorem redirect_unknown_code_no_write (c : string) (w : World) :
  (forall d, d ∈ urls w -> short_code d <> c) ->
  (exists e, fst (redirect_to_url c w) = Raise e) /\
  snd (redirect_to_url c w) = w /\
  (forall i, urls (snd (redirect_to_url c w)) !! i = urls w !! i).
Proof.
  intros H%codes_absent. rewrite (redirect_missing c w H).
  split; [by eexists | done].
Qed.

(** [n] redirects in a row all answer with the URL and leave the document
    where it was, its counter advanced by [n]. *)
Lemma redirects_spec (n : nat) (c : string) (w : World) i d :
  list_find (by_short_code c) (urls w) = Some (i, d) ->
  fst (redirects n c w) = replicate n (Return (Redirect.mk (original_url d))) /\
  list_find (by_short_code c) (urls (snd (redirects n c w))) =
    Some (i, inc_clicks (Z.of_nat n) d).
Proof.
  revert w d. induction n as [| n IH]; intros w d H.
  - cbn. by rewrite inc_clicks_0.
  - cbn [redirects]. rewrite (redirect_found c w i d H).
    assert (H1 : list_find (by_short_code c)
                   (urls (set_urls (alter (inc_clicks 1) i (urls w)) w))
                 = Some (i, inc_clicks 1 d)).
    { cbn. apply list_find_alter; [done |].
      apply list_find_Some in H as (_ & Hc & _). exact Hc. }
    destruct (IH _ _ H1) as [Ho Hf].
    destruct (redirects n c _) as [os w''] eqn:E. cbn in Ho, Hf |- *.
    split; [by rewrite Ho |].
    rewrite Hf, inc_clicks_inc_clicks. do 3 f_equal. lia.
Qed.

(** C4 (sequential counter).  If the lookup by code yields a document whose
    counter is 0, then after [n] redirect calls in a row the lookup yields
    the same document with [clicks] equal to [n]. *)
Theorem sequential_redirects_count (n : nat) (c : string) (w : World)
    (d : document) :
  fst (find_one (by_short_code c) w) = Return (Some d) ->
  clicks d = 0 ->
  exists d',
    fst (find_one (by_short_code c) (snd (redirects n c w))) = Return (Some d') /\
    clicks d' = Z.of_nat n /\
    short_code d' = short_code d /\ original_url d' = original_url d /\
    created_at d' = created_at d.
Proof.
  intros [i H]%find_one_Some Hz.
  destruct (redirects_spec n c w i d H) as [_ Hf].
  exists (inc_clicks (Z.of_nat n) d). split.
  - apply find_one_Some. by exists i.
  - cbn. rewrite Hz. by repeat split.
Qed.

(** ** Submission *)


(** ** Runs *)

(** What one request does to the collection. *)
Lemma handle_urls (fuel : nat) (r : request) (w w' : World) :
  handle fuel r w = Some w' ->
  urls w' = urls w \/
  (exists now u code, r = Shorten now u /\
     list_find (by_short_code code) (urls w) = None /\
     urls w' = (urls w ++ [Doc code u (bson_datetime now) 0])%list) \/
  (exists c i d, r = RedirectTo c /\
     list_find (by_short_code c) (urls w) = Some (i, d) /\
     urls w' = alter (inc_clicks 1) i (urls w)).
Proof.
  destruct r as [now u | c | c]; unfold handle.
  - destruct (shorten_url fuel now u w) as [[r w1] |] eqn:E; [| done].
    cbn. intros [= <-].
    destruct (list_find (by_original_url u) (urls w)) as [[i d] |] eqn:Eu.
    + rewrite (shorten_existing _ _ _ _ i d Eu) in E. injection E as _ <-.
      by left.
    + destruct (shorten_fresh _ _ _ _ _ _ Eu E) as (code & _ & Hc & Hu & _).
      right; left. by exists now, u, code.
  - intros [= <-].
    destruct (list_find (by_short_code c) (urls w)) as [[i d] |] eqn:E.
    + rewrite (redirect_found c w i d E). right; right. by exists c, i, d.
    + rewrite (redirect_missing c w E). by left.
  - intros [= <-].
    destruct (list_find (by_short_code c) (urls w)) as [[i d] |] eqn:E.
    + rewrite (stats_found c w i d E). by left.
    + rewrite (stats_missing c w E). by left.
Qed.

Lemma handle_NoDup (fuel : nat) (r : request) (w w' : World) :
  NoDup (codes w) -> handle fuel r w = Some w' -> NoDup (codes w').
Proof.
  intros Hnd H. unfold codes in *.
  destruct (handle_urls _ _ _ _ H)
    as [-> | [(now & u & code & _ & Hc & ->) | (c & i & d & _ & _ & ->)]].
  - done.
  - rewrite fmap_app. apply NoDup_app. split_and!; [done | | apply NoDup_singleton].
    cbn. intros x (d & Hx & Hd)%list_elem_of_fmap Hx'%list_elem_of_singleton.
    eapply codes_absent; [exact Hc | exact Hd | congruence].
  - by rewrite codes_alter_inc.
Qed.

Lemma run_NoDup (rs : list (nat * request)) (w w' : World) :
  NoDup (codes w) -> run rs w = Some w' -> NoDup (codes w').
Proof.
  revert w. induction rs as [| [fuel r] rs IH]; intros w Hnd; cbn.
  - by intros [= <-].
  - destruct (handle fuel r w) as [w1 |] eqn:E; [| done].
    apply IH. by eapply handle_NoDup.
Qed.

(** With distinct codes, one request leaves every document in its place and
    adds to its counter 1 when it is a redirect to the document's code and
    0 otherwise. *)
Lemma handle_lookup (fuel : nat) (r : request) (w w' : World) i d :
  NoDup (codes w) -> handle fuel r w = Some w' -> urls w !! i = Some d ->
  urls w' !! i =
    Some (inc_clicks (redirect_count (short_code d) [(fuel, r)]) d).
Proof.
  intros Hnd H Hi.
  destruct (handle_urls _ _ _ _ H)
    as [Hu | [(now & u & code & -> & _ & ->) | (c & j & d0 & -> & Hf & ->)]].
  - rewrite Hu, Hi. f_equal. symmetry.
    destruct r as [now u | c | c]; cbn; try apply inc_clicks_0.
    case_decide as Hc; [| apply inc_clicks_0]. exfalso.
    unfold handle in H. injection H as <-.
    destruct (list_find (by_short_code c) (urls w)) as [[j d0] |] eqn:E.
    + rewrite (redirect_found c w j d0 E) in Hu. cbn in Hu.
      apply list_find_Some in E as (Hj & _ & _).
      apply (f_equal (fun l => clicks <$> l !! j)) in Hu.
      rewrite list_lookup_alter_eq, Hj in Hu. cbn in Hu.
      injection Hu. lia.
    + eapply codes_absent; [exact E | | symmetry; exact Hc].
      by eapply list_elem_of_lookup_2.
  - cbn. rewrite inc_clicks_0. rewrite lookup_app_l; [done |].
    by eapply lookup_lt_Some.
  - apply list_find_Some in Hf as (Hj & Hc & _). unfold by_short_code in Hc.
    cbn. case_decide as Hcd.
    + assert (i = j) as ->.
      { eapply (NoDup_lookup (codes w)); [done | |]; unfold codes;
          rewrite list_lookup_fmap.
        - by rewrite Hi.
        - rewrite Hj. cbn. congruence. }
      by rewrite list_lookup_alter_eq, Hi.
    + rewrite inc_clicks_0. destruct (decide (i = j)) as [-> |].
      * congruence.
      * by rewrite list_lookup_alter_ne.
Qed.

Lemma run_lookup (rs : list (nat * request)) (w w' : World) i d :
  NoDup (codes w) -> run rs w = Some w' -> urls w !! i = Some d ->
  urls w' !! i = Some (inc_clicks (redirect_count (short_code d) rs) d).
Proof.
  revert w d. induction rs as [| [fuel r] rs IH]; intros w d Hnd; cbn [run].
  - intros [= <-] ->. cbn. by rewrite inc_clicks_0.
  - destruct (handle fuel r w) as [w1 |] eqn:E; [| done].
    intros Hrun Hi.
    pose proof (handle_lookup _ _ _ _ _ _ Hnd E Hi) as H1.
    rewrite (IH _ _ (handle_NoDup _ _ _ _ Hnd E) Hrun H1).
    rewrite inc_clicks_inc_clicks. do 2 f_equal.
    destruct r as [now u | c | c]; cbn; try done.
    case_decide; lia.
Qed.

Lemma redirect_count_nonneg (c : string) (rs : list (nat * request)) :
  0 <= redirect_count c rs.
Proof.
  induction rs as [| [fuel [now u | c' | c']] rs IH]; cbn; try lia.
  case_decide; lia.
Qed.

(** C2 (code uniqueness).  In every world reached from one with an empty
    collection by requests served one after the other (submissions, and
    redirects and statistics as well), no two documents carry the same
    code. *)
Theorem codes_unique (rs : list (nat * request)) (w0 w : World) :
  urls w0 = [] -> run rs w0 = Some w -> NoDup (codes w).
Proof.
  intros H0. apply run_NoDup. unfold codes. rewrite H0. apply NoDup_nil_2.
Qed.

(** C7 (clicks only grow, by one per redirect that finds the document).  In
    a world reached from an empty collection, a document present before a
    run of requests is still in its place after it, with the same code, URL
    and creation time, and its counter has grown by exactly the number of
    redirect calls to its code in the run: submissions, statistics and
    redirects to other codes add nothing, and the counter never
    decreases. *)
Theorem clicks_monotone (rs0 rs : list (nat * request)) (w0 w w' : World)
    (i : nat) (d : document) :
  urls w0 = [] -> run rs0 w0 = Some w ->
  run rs w = Some w' -> urls w !! i = Some d ->
  exists d',
    urls w' !! i = Some d' /\
    short_code d' = short_code d /\ original_url d' = original_url d /\
    created_at d' = created_at d /\
    clicks d' = clicks d + redirect_count (short_code d) rs /\
    clicks d <= clicks d'.
Proof.
  intros H0 Hreach Hrun Hi.
  assert (Hnd : NoDup (codes w)).
  { eapply run_NoDup; [| exact Hreach]. unfold codes. rewrite H0.
    apply NoDup_nil_2. }
  eexists. split; [by eapply run_lookup |]. cbn.
  pose proof (redirect_count_nonneg (short_code d) rs).
  repeat split; lia.
Qed.

(** ** Allocation of a code *)

Lemma generate_candidate (w : World) (k : nat) :
  generate_short_code 6 (set_drawn (drawn w + 6 * k) w) =
    (Return (candidate w k), set_drawn (drawn w + 6 * S k) w).
Proof.
  unfold candidate.
  destruct (generate_short_code_spec 6 (set_drawn (drawn w + 6 * k) w))
    as (cs & -> & _).
  cbn [fst]. f_equal. unfold set_drawn. cbn [urls entropy drawn]. f_equal.
  change (Z.to_nat 6) with 6%nat. lia.
Qed.

Lemma code_in_use (c : string) (w : World) :
  c ∈ codes w -> exists i d, list_find (by_short_code c) (urls w) = Some (i, d).
Proof.
  intros (d & -> & Hd)%list_elem_of_fmap.
  destruct (list_find_elem_of (by_short_code (short_code d)) (urls w) d)
    as [[i d'] H]; [done | done |]. by exists i, d'.
Qed.

Lemma code_not_in_use (c : string) (w : World) :
  c ∉ codes w -> list_find (by_short_code c) (urls w) = None.
Proof.
  intros Hc. apply codes_absent. intros d Hd <-. apply Hc.
  by apply list_elem_of_fmap_2.
Qed.

(** The loop, entered with candidate [j] after its six draws: when the next
    [k] candidates are in use and the one after them is not, it returns that
    one after [k] more draws of six, given fuel for [k + 1] tests. *)
Lemma while_code_found_retries (k fuel j : nat) (w : World) :
  (forall m, j <= m < j + k -> candidate w m ∈ codes w)%nat ->
  candidate w (j + k) ∉ codes w ->
  while_code_found fuel (candidate w j) (set_drawn (drawn w + 6 * S j) w) =
    if decide (k < fuel)%nat
    then Some (Return (candidate w (j + k)),
               set_drawn (drawn w + 6 * S (j + k)) w)
    else None.
Proof.
  revert fuel j. induction k as [| k IH]; intros fuel j Hused Hfresh.
  - destruct fuel as [| fuel]; [done |].
    rewrite decide_True by lia. rewrite Nat.add_0_r in *.
    cbn [while_code_found]. unfold bindD, lift. rewrite find_one_eq.
    cbn [urls set_drawn]. by rewrite (code_not_in_use _ _ Hfresh).
  - destruct fuel as [| fuel]; [done |].
    cbn [while_code_found]. unfold bindD at 1, lift at 1. rewrite find_one_eq.
    cbn [urls set_drawn].
    destruct (code_in_use (candidate w j) w) as (i & d & ->); [apply Hused; lia |].
    change (snd <$> Some (i, d)) with (Some d). unfold bindD, lift.
    rewrite generate_candidate.
    rewrite (IH fuel (S j)).
    + replace (S j + k)%nat with (j + S k)%nat by lia.
      destruct (decide (k < fuel)%nat), (decide (S k < S fuel)%nat);
        done || lia.
    + intros m Hm. apply Hused. lia.
    + by replace (S j + k)%nat with (j + S k)%nat by lia.
Qed.

(** When every candidate is in use, no amount of fuel makes the loop
    return. *)
Lemma while_code_found_diverges (fuel j : nat) (w : World) :
  (forall m, candidate w m ∈ codes w) ->
  while_code_found fuel (candidate w j) (set_drawn (drawn w + 6 * S j) w) = None.
Proof.
  intros Hused. revert j. induction fuel as [| fuel IH]; intros j; [done |].
  cbn [while_code_found]. unfold bindD at 1, lift at 1. rewrite find_one_eq.
  cbn [urls set_drawn].
  destruct (code_in_use (candidate w j) w) as (i & d & ->); [apply Hused |].
  change (snd <$> Some (i, d)) with (Some d). unfold bindD, lift.
  by rewrite generate_candidate, IH.
Qed.

(** A submission of a new URL, up to its loop. *)
Lemma shorten_new (fuel : nat) (now : Z) (u : string) (w : World) :
  list_find (by_original_url u) (urls w) = None ->
  shorten_url fuel now u w =
    match while_code_found fuel (candidate w 0)
            (set_drawn (drawn w + 6 * 1) w) with
    | Some (Return code, w3) =>
        Some (Return (URLResponse.mk code u now),
              set_urls (urls w3 ++ [Doc code u (bson_datetime now) 0]) w3)
    | Some (Raise e, w3) => Some (Raise e, w3)
    | None => None
    end.
Proof.
  intros Hu. unfold shorten_url, bindD at 1, lift at 1. rewrite find_one_eq, Hu.
  cbn. unfold bindD at 1, lift at 1.
  pose proof (generate_candidate w 0) as G.
  rewrite Nat.mul_0_r, Nat.add_0_r, set_drawn_id in G. rewrite G.
  unfold bindD at 1.
  by destruct (while_code_found _ _ _) as [[[code | e] w3] |].
Qed.

(** C3, as the code has it (no retry ceiling).  For a URL without document:
    if the first [k] candidates are in use and the next one is not, the
    submission returns that candidate after [k] retries whenever the fuel
    covers [k + 1] tests, and is still looping with any less; if every
    candidate is in use it never returns, whatever the fuel.  No exception
    stands for exhaustion. *)
Theorem allocation_retries_until_fresh (now : Z) (u : string) (w : World) :
  (forall d, d ∈ urls w -> original_url d <> u) ->
  (forall k,
     (forall j, (j < k)%nat -> candidate w j ∈ codes w) ->
     candidate w k ∉ codes w ->
     forall fuel,
       shorten_url fuel now u w =
         if decide (k < fuel)%nat
         then Some (Return (URLResponse.mk (candidate w k) u now),
                    MkWorld (urls w ++
                             [Doc (candidate w k) u (bson_datetime now) 0])
                            (entropy w) (drawn w + 6 * S k))
         else None) /\
  ((forall j, candidate w j ∈ codes w) ->
   forall fuel, shorten_url fuel now u w = None).
Proof.
  intros Hu'.
  assert (Hu : list_find (by_original_url u) (urls w) = None)
    by (by apply list_find_absent).
  split.
  - intros k Hused Hfresh fuel. rewrite (shorten_new _ _ _ _ Hu).
    rewrite (while_code_found_retries k fuel 0 w).
    + by destruct (decide (k < fuel)%nat).
    + intros m Hm. apply Hused. lia.
    + done.
  - intros Hused fuel. rewrite (shorten_new _ _ _ _ Hu).
    by rewrite (while_code_found_diverges fuel 0 w Hused).
Qed.

(** ** Insertion *)

(** C9, as the code has it (check, then insert).  [insert_one] succeeds and
    appends whatever the collection holds; the document that a submission
    inserts has a code that the lookup just before found in no document. *)
Theorem insert_one_unconditional (fuel : nat) (now : Z) (u : string)
    (w : World) :
  (forall d, insert_one d w = (Return tt, set_urls (urls w ++ [stored d]) w)) /\
  (forall r w', shorten_url fuel now u w = Some (r, w') ->
     urls w' = urls w \/
     exists code,
       urls w' = (urls w ++ [Doc code u (bson_datetime now) 0])%list /\
       code ∉ codes w).
Proof.
  split; [done |]. intros r w' H.
  destruct (list_find (by_original_url u) (urls w)) as [[i d] |] eqn:E.
  - rewrite (shorten_existing _ _ _ _ i d E) in H. injection H as _ <-.
    by left.
  - destruct (shorten_fresh _ _ _ _ _ _ E H) as (code & _ & Hc & Hu & _).
    right. exists code. split; [done |].
    intros (d & Hd & Hin)%list_elem_of_fmap.
    by eapply codes_absent.
Qed.

(** ** The properties at concrete worlds *)

Lemma w_one_no_zzzzzz (d : document) : d ∈ urls w_one -> short_code d <> "zzzzzz".
Proof. intros ->%list_elem_of_singleton. discriminate. Defined.


Lemma codes_unique_witness :
  run rs_submit w_repeat = Some w_two /\ NoDup (codes w_two).
Proof.
  split; [reflexivity |].
  apply (codes_unique rs_submit w_repeat w_two); reflexivity.
Defined.

Lemma sequential_redirects_count_witness :
  exists d',
    fst (find_one (by_short_code "abcdef") (snd (redirects 3 "abcdef" w_one)))
      = Return (Some d') /\
    clicks d' = 3 /\
    short_code d' = "abcdef" /\ original_url d' = url_a /\
    created_at d' = 17000.
Proof.
  apply (sequential_redirects_count 3 "abcdef" w_one doc_a); reflexivity.
Defined.

Lemma redirect_returns_original_url_witness :
  doc_b ∈ urls w_resubmitted /\ short_code doc_b = "ghijkl" /\
  fst (redirect_to_url "ghijkl" w_resubmitted) = Return (Redirect.mk url_b).
Proof.
  assert (Hd : doc_b ∈ urls w_resubmitted)
    by apply list_elem_of_further, list_elem_of_here.
  split_and!; [exact Hd | reflexivity |].
  apply (proj1 (proj2 (proj2
           (redirect_returns_original_url "ghijkl" w_resubmitted doc_b
              Hd eq_refl))) 1%nat); [reflexivity |].
  intros [| j] d' Hj; [intros [= <-]; discriminate | lia].
Defined.

Lemma unknown_code_not_found_witness :
  fst (redirect_to_url "zzzzzz" w_one) = Raise (HTTPException 404 "URL not found") /\
  fst (get_url_stats "zzzzzz" w_one) = Raise (HTTPException 404 "URL not found").
Proof.
  apply (unknown_code_not_found "zzzzzz" w_one). exact w_one_no_zzzzzz.
Defined.

Lemma redirect_unknown_code_no_write_witness :
  (exists e, fst (redirect_to_url "zzzzzz" w_one) = Raise e) /\
  snd (redirect_to_url "zzzzzz" w_one) = w_one /\
  (forall i, urls (snd (redirect_to_url "zzzzzz" w_one)) !! i = urls w_one !! i).
Proof.
  apply (redirect_unknown_code_no_write "zzzzzz" w_one). exact w_one_no_zzzzzz.
Defined.

Lemma clicks_monotone_witness :
  run [(1%nat, Shorten 17250 url_a)] w_empty = Some w_one /\
  exists w' d',
    run rs_mixed w_one = Some w' /\
    urls w' !! 0%nat = Some d' /\
    short_code d' = "abcdef" /\ original_url d' = url_a /\
    created_at d' = 17000 /\
    clicks d' = 0 + redirect_count "abcdef" rs_mixed /\
    0 <= clicks d'.
Proof.
  split; [reflexivity |].
  exists (MkWorld [Doc "abcdef" url_a 17000 2] (fun i => i) 6).
  destruct (clicks_monotone [(1%nat, Shorten 17250 url_a)] rs_mixed
              w_empty w_one (MkWorld [Doc "abcdef" url_a 17000 2] (fun i => i) 6)
              0%nat doc_a eq_refl eq_refl eq_refl eq_refl) as [d' H].
  exists d'. split; [reflexivity | exact H].
Defined.

Lemma generate_short_code_shape_witness :
  0 <= 6 /\
  exists code w',
    generate_short_code 6 w_empty = (Return code, w') /\
    Z.of_nat (String.length code) = 6 /\
    Forall (fun a => a ∈ characters /\ alnum a = true)
           (list_ascii_of_string code).
Proof.
  split; [lia |].
  apply (proj1 (generate_short_code_shape 6 w_empty ltac:(lia))).
Defined.

Lemma allocation_retries_until_fresh_witness :
  shorten_url 2 18750 url_b w_collide =
    Some (Return (URLResponse.mk "mnopqr" url_b 18750), w_two) /\
  shorten_url 1 18750 url_b w_collide = None.
Proof.
  assert (Hu : forall d, d ∈ urls w_collide -> original_url d <> url_b).
  { intros d ->%list_elem_of_singleton. discriminate. }
  assert (Hused : forall j, (j < 1)%nat -> candidate w_collide j ∈ codes w_collide).
  { intros [| j] Hj; [apply list_elem_of_here | lia]. }
  assert (Hfresh : candidate w_collide 1 ∉ codes w_collide).
  { intros H%list_elem_of_singleton. discriminate. }
  split.
  - exact (proj1 (allocation_retries_until_fresh 18750 url_b w_collide Hu)
             1%nat Hused Hfresh 2%nat).
  - exact (proj1 (allocation_retries_until_fresh 18750 url_b w_collide Hu)
             1%nat Hused Hfresh 1%nat).
Defined.

Lemma insert_one_unconditional_witness :
  urls (MkWorld [doc_a; Doc "ghijkl" url_b 18000 0] (fun i => i) 12) = urls w_one \/
  exists code,
    urls (MkWorld [doc_a; Doc "ghijkl" url_b 18000 0] (fun i => i) 12) =
      (urls w_one ++ [Doc code url_b (bson_datetime 18750) 0])%list /\
    code ∉ codes w_one.
Proof.
  apply (proj2 (insert_one_unconditional 1 18750 url_b w_one)
           (Return (URLResponse.mk "ghijkl" url_b 18750))).
  reflexivity.
Defined.

(** The scenario of the specification, at a time that is a whole number of
    milliseconds: a URL submitted twice gets one code and one creation time;
    three redirects later the statistics show three clicks; a code never
    issued is not found. *)
Example scenario :
  shorten_url 1 17000 url_a w_empty =
    Some (Return (URLResponse.mk "abcdef" url_a 17000), w_one) /\
  shorten_url 1 18750 url_a w_one =
    Some (Return (URLResponse.mk "abcdef" url_a 17000), w_one) /\
  fst (get_url_stats "abcdef" (snd (redirects 3 "abcdef" w_one))) =
    Return (Stats.mk "abcdef" url_a 17000 3) /\
  fst (get_url_stats "zzzzzz" (snd (redirects 3 "abcdef" w_one))) =
    Raise (HTTPException 404 "URL not found").
Proof. by split_and!. Qed.

(** ** Where the code departs from the specification *)


(** C3 as stated fails: with one document and a generator that keeps
    spelling its code, the submission of a new URL returns with no amount of
    fuel, neither a response nor an exception. *)
Lemma allocation_never_returns_when_stuck :
  ~ exists fuel out, shorten_url fuel 18750 url_b w_stuck = Some out.
Proof.
  intros (fuel & out & H).
  rewrite shorten_new in H by reflexivity.
  rewrite (while_code_found_diverges fuel 0 w_stuck) in H; [done |].
  intros m. apply list_elem_of_here.
Qed.

(** C9 as stated fails: the collection holds a document with the code
    "abcdef", and inserting another document with that code succeeds and
    leaves two documents with one code. *)
Lemma insert_one_accepts_used_code :
  doc_a ∈ urls w_one /\ short_code doc_dup = short_code doc_a /\
  insert_one doc_dup w_one = (Return tt, MkWorld [doc_a; doc_dup] (fun i => i) 6) /\
  ~ NoDup (codes (snd (insert_one doc_dup w_one))).
Proof.
  split_and!; [apply list_elem_of_here | done | done |].
  intros H. cbn in H. apply NoDup_cons in H as [H _]. apply H, list_elem_of_here.
Qed.

(** * Further properties of the code *)

(** ** The generator, draw by draw *)

Lemma choices_nth (n : nat) (seq : list ascii) (w : World) :
  seq <> [] ->
  exists cs, choices n seq w = (Return cs, set_drawn (drawn w + n) w) /\
    length cs = n /\
    forall j, (j < n)%nat ->
      cs !! j = seq !! (entropy w (drawn w + j) mod length seq)%nat.
Proof.
  intros Hne. revert w. induction n as [| n IH]; intros w.
  - exists []. cbn. rewrite Nat.add_0_r, set_drawn_id.
    split_and!; [done | done | intros j Hj; lia].
  - destruct (choice_spec seq w Hne) as (c & Hc & Ec).
    destruct (IH (set_drawn (S (drawn w)) w)) as (cs & Ecs & Hlen & Hnth).
    exists (c :: cs). cbn [choices]. unfold bind at 1. rewrite Ec.
    unfold bind at 1. rewrite Ecs. unfold ret. split_and!.
    + f_equal. cbn. unfold set_drawn. cbn. f_equal. lia.
    + cbn. by rewrite Hlen.
    + intros [| j] Hj.
      * by rewrite Nat.add_0_r, Hc.
      * change ((c :: cs) !! S j) with (cs !! j). rewrite (Hnth j) by lia.
        cbn [entropy drawn set_drawn].
        by replace (S (drawn w) + j)%nat with (drawn w + S j)%nat by lia.
Qed.

Lemma string_of_list_ascii_inj (cs1 cs2 : list ascii) :
  string_of_list_ascii cs1 = string_of_list_ascii cs2 -> cs1 = cs2.
Proof.
  intros H. apply (f_equal list_ascii_of_string) in H.
  by rewrite !list_ascii_of_string_of_list_ascii in H.
Qed.

(** X1.  The generator returns for every length and leaves the collection
    as it was; for a length of zero or less it returns the empty string and
    asks the random generator for nothing. *)
Theorem generate_short_code_no_symbols (n : Z) (w : World) :
  (exists code w',
     generate_short_code n w = (Return code, w') /\ urls w' = urls w) /\
  (n <= 0 -> generate_short_code n w = (Return "", w)).
Proof.
  destruct (generate_short_code_spec n w) as (cs & E & Hlen & _).
  split; [by eexists _, _ |].
  intros Hn. rewrite E. replace (Z.to_nat n) with O in * by lia.
  destruct cs; [| done]. cbn. by rewrite Nat.add_0_r, set_drawn_id.
Qed.

(** X2.  On indices below 62, as the library hands them out, two calls of
    the generator return the same code exactly when they are handed the same
    indices, position by position: different sequences of indices spell
    different codes. *)
Theorem generate_short_code_injective (n : Z) (w1 w2 : World) :
  (forall j, (j < Z.to_nat n)%nat ->
     (entropy w1 (drawn w1 + j) < 62)%nat /\
     (entropy w2 (drawn w2 + j) < 62)%nat) ->
  fst (generate_short_code n w1) = fst (generate_short_code n w2) <->
  forall j, (j < Z.to_nat n)%nat ->
    entropy w1 (drawn w1 + j) = entropy w2 (drawn w2 + j).
Proof.
  intros Hlt. unfold generate_short_code, bind.
  destruct (choices_nth (Z.to_nat n) characters w1) as (cs1 & -> & L1 & N1);
    [done |].
  destruct (choices_nth (Z.to_nat n) characters w2) as (cs2 & -> & L2 & N2);
    [done |].
  rewrite characters_length in N1, N2. cbn [fst ret]. split.
  - intros [= H%string_of_list_ascii_inj] j Hj. subst cs2.
    destruct (lookup_lt_is_Some_2 cs1 j) as [c Hc]; [lia |].
    destruct (Hlt j Hj) as [H1 H2].
    rewrite <- (Nat.mod_small _ 62 H1), <- (Nat.mod_small _ 62 H2).
    eapply (NoDup_lookup characters); [apply characters_NoDup | |].
    + by rewrite <- N1, Hc.
    + by rewrite <- N2, Hc.
  - intros H. do 2 f_equal. apply list_eq. intros j.
    destruct (decide (j < Z.to_nat n)%nat) as [Hj | Hj].
    + by rewrite N1, N2, H.
    + rewrite !lookup_ge_None_2; [done | lia | lia].
Qed.

Lemma index_of_lookup (c : ascii) :
  c ∈ characters ->
  characters !! (index_of c mod 62)%nat = Some c.
Proof.
  intros Hc. unfold index_of.
  destruct (list_find_elem_of (eq c) characters c Hc eq_refl) as [[i c'] E].
  rewrite E. apply list_find_Some in E as (Hi & <- & _).
  rewrite Nat.mod_small; [done |].
  rewrite <- characters_length. by eapply lookup_lt_Some.
Qed.

(** X3.  Every string of alphabet symbols is a possible code: for each list
    of symbols taken from [characters] there are draws for which the
    generator, asked for that many symbols, returns exactly that string. *)
Theorem generate_short_code_covers (cs : list ascii) (l : list document)
    (d0 : nat) :
  Forall (fun c => c ∈ characters) cs ->
  fst (generate_short_code (Z.of_nat (length cs))
         (MkWorld l (entropy_for cs d0) d0)) =
    Return (string_of_list_ascii cs).
Proof.
  intros Hall. unfold generate_short_code, bind. rewrite Nat2Z.id.
  destruct (choices_nth (length cs) characters
              (MkWorld l (entropy_for cs d0) d0)) as (cs' & -> & L & N);
    [done |].
  cbn [fst ret]. do 2 f_equal. apply list_eq. intros j.
  destruct (decide (j < length cs)%nat) as [Hj | Hj].
  - rewrite N by done. rewrite characters_length. cbn [entropy drawn].
    unfold entropy_for. replace (d0 + j - d0)%nat with j by lia.
    destruct (lookup_lt_is_Some_2 cs j Hj) as [c Hc]. rewrite Hc.
    apply index_of_lookup.
    rewrite Forall_forall in Hall. apply Hall.
    by eapply list_elem_of_lookup_2.
  - rewrite !lookup_ge_None_2; [done | lia | lia].
Qed.

(** ** Statistics and redirects on any collection *)

Lemma stats_Return (c : string) (w : World) (s : Stats.t) :
  fst (get_url_stats c w) = Return s ->
  exists i d, list_find (by_short_code c) (urls w) = Some (i, d) /\
    s = Stats.mk (short_code d) (original_url d) (created_at d) (clicks d).
Proof.
  destruct (list_find (by_short_code c) (urls w)) as [[i d] |] eqn:E.
  - rewrite (stats_found c w i d E). intros [= <-]. by exists i, d.
  - by rewrite (stats_missing c w E).
Qed.

(** An update in place of a document that is no match, before and after,
    does not change what the lookup finds. *)
Lemma list_find_alter_other (P : document -> Prop)
    `{!forall d, Decision (P d)} (upd : document -> document)
    (l : list document) (i : nat) :
  (forall d, l !! i = Some d -> ~ P d /\ ~ P (upd d)) ->
  list_find P (alter upd i l) = list_find P l.
Proof.
  revert i. induction l as [| x l IH]; intros i Hi; [done |].
  destruct i as [| i]; csimpl.
  - destruct (Hi x eq_refl) as [H1 H2].
    by rewrite !decide_False by done.
  - case_decide; [done |]. by rewrite IH.
Qed.

(** X4.  The statistics handler is a pure read: it leaves the world as it
    found it, whether or not the code is known, and for a known code it
    answers with the requested code and the URL, creation time and click
    count of the document that the lookup yields. *)
Theorem get_url_stats_reads (c : string) (w : World) :
  snd (get_url_stats c w) = w /\
  (forall d, fst (find_one (by_short_code c) w) = Return (Some d) ->
     fst (get_url_stats c w) =
       Return (Stats.mk c (original_url d) (created_at d) (clicks d))).
Proof.
  split.
  - destruct (list_find (by_short_code c) (urls w)) as [[i d] |] eqn:E.
    + by rewrite (stats_found c w i d E).
    + by rewrite (stats_missing c w E).
  - intros d [i H]%find_one_Some. rewrite (stats_found c w i d H).
    apply list_find_Some in H as (_ & <- & _). done.
Qed.

(** X5.  A redirect to one code changes nothing that can be observed through
    another code: the statistics and the redirect of every other code answer
    after it as they did before. *)
Theorem redirect_other_code_unchanged (c c' : string) (w : World) :
  c' <> c ->
  fst (get_url_stats c' (snd (redirect_to_url c w))) = fst (get_url_stats c' w) /\
  fst (redirect_to_url c' (snd (redirect_to_url c w))) = fst (redirect_to_url c' w).
Proof.
  intros Hne.
  assert (E : list_find (by_short_code c') (urls (snd (redirect_to_url c w)))
              = list_find (by_short_code c') (urls w)).
  { destruct (list_find (by_short_code c) (urls w)) as [[i d] |] eqn:Ec.
    - rewrite (redirect_found c w i d Ec). cbn [snd urls set_urls].
      apply list_find_alter_other. intros d' Hd'.
      apply list_find_Some in Ec as (Hi & Hc & _).
      assert (d' = d) as -> by congruence.
      unfold by_short_code in *. cbn. split; congruence.
    - by rewrite (redirect_missing c w Ec). }
  destruct (list_find (by_short_code c') (urls w)) as [[j d'] |] eqn:E'.
  - rewrite (stats_found c' _ j d' E), (stats_found c' w j d' E').
    by rewrite (redirect_found c' _ j d' E), (redirect_found c' w j d' E').
  - rewrite (stats_missing c' _ E), (stats_missing c' w E').
    by rewrite (redirect_missing c' _ E), (redirect_missing c' w E').
Qed.

(** X6.  Redirects and statistics compose: when the statistics of a code
    answer [s], then [n] redirects to it in a row all answer with the URL of
    [s], and the statistics afterwards are [s] with [n] more clicks. *)
Theorem stats_after_redirects (n : nat) (c : string) (w : World) (s : Stats.t) :
  fst (get_url_stats c w) = Return s ->
  fst (redirects n c w) =
    replicate n (Return (Redirect.mk (Stats.original_url s))) /\
  fst (get_url_stats c (snd (redirects n c w))) =
    Return (Stats.mk (Stats.short_code s) (Stats.original_url s)
                     (Stats.created_at s) (Stats.clicks s + Z.of_nat n)).
Proof.
  intros (i & d & H & ->)%stats_Return.
  destruct (redirects_spec n c w i d H) as [Ho Hf].
  split; [exact Ho |]. by rewrite (stats_found c _ i _ Hf).
Qed.

(** ** Submissions on any collection *)

Lemma bson_datetime_idem (t : Z) :
  bson_datetime (bson_datetime t) = bson_datetime t.
Proof.
  unfold bson_datetime. f_equal.
  rewrite Z.mul_comm. by apply Z.div_mul.
Qed.

Lemma bson_datetime_bounds (t : Z) :
  bson_datetime t <= t < bson_datetime t + 1000.
Proof.
  unfold bson_datetime.
  pose proof (Z.mul_div_le t 1000 ltac:(lia)).
  pose proof (Z.mul_succ_div_gt t 1000 ltac:(lia)). lia.
Qed.

Lemma url_absent (u : string) (w : World) :
  list_find (by_original_url u) (urls w) = None <->
  forall d, d ∈ urls w -> original_url d <> u.
Proof. apply list_find_absent. Qed.

Lemma is_code_generated (cs : list ascii) :
  length cs = 6%nat -> Forall (fun c => c ∈ characters) cs ->
  is_code (string_of_list_ascii cs) = true.
Proof.
  intros Hlen Hall. unfold is_code.
  rewrite string_length_of_list, Hlen, list_ascii_of_string_of_list_ascii.
  cbn. apply forallb_forall. intros a Ha.
  apply characters_alnum. rewrite Forall_forall in Hall.
  by apply Hall, list_elem_of_In.
Qed.

Lemma generate_short_code_is_code (w : World) :
  exists code, generate_short_code 6 w =
                 (Return code, set_drawn (drawn w + 6) w) /\
               is_code code = true.
Proof.
  destruct (generate_short_code_spec 6 w) as (cs & E & Hlen & Hall).
  exists (string_of_list_ascii cs). split; [exact E |].
  by apply is_code_generated.
Qed.

Lemma while_code_found_is_code (fuel : nat) (code : string) (w : World) r w' :
  is_code code = true ->
  while_code_found fuel code w = Some (r, w') ->
  exists code', r = Return code' /\ is_code code' = true.
Proof.
  revert code w. induction fuel as [| fuel IH]; intros code w Hc; [done |].
  cbn [while_code_found]. unfold bindD at 1, lift at 1. rewrite find_one_eq.
  destruct (list_find (by_short_code code) (urls w)) as [[i d] |] eqn:E; cbn.
  - unfold bindD, lift.
    destruct (generate_short_code_is_code w) as (code1 & -> & Hc1).
    by apply IH.
  - unfold retD, lift, ret. intros [= <- <-]. by exists code.
Qed.

(** The document that a submission of a new URL appends. *)
Lemma shorten_fresh_doc (fuel : nat) (now : Z) (u : string) (w : World) r w' :
  list_find (by_original_url u) (urls w) = None ->
  shorten_url fuel now u w = Some (r, w') ->
  exists code, r = Return (URLResponse.mk code u now) /\
    is_code code = true /\
    list_find (by_short_code code) (urls w) = None /\
    urls w' = (urls w ++ [Doc code u (bson_datetime now) 0])%list.
Proof.
  intros Hu H.
  destruct (shorten_fresh _ _ _ _ _ _ Hu H) as (code & -> & Hc & Hw & _).
  exists code. split_and!; try done.
  rewrite (shorten_new _ _ _ _ Hu) in H.
  destruct (while_code_found _ _ _) as [[r3 w3] |] eqn:E; [| done].
  unfold candidate in E.
  destruct (generate_short_code_is_code
              (set_drawn (drawn w + 6 * 0) w)) as (code0 & E0 & Hc0).
  rewrite E0 in E. cbn [fst] in E.
  destruct (while_code_found_is_code _ _ _ _ _ Hc0 E) as (code' & -> & Hc').
  injection H as Hcode _. by rewrite <- Hcode.
Qed.


(** X8.  A new URL, on any collection: the submission that returns answers
    with a well-formed code, the submitted URL and the time of the call;
    right after it the statistics of that code show zero clicks, the URL and
    the time of the call cut to the millisecond, and the redirect of that
    code gives the URL back. *)
Theorem shorten_url_new_round_trip (fuel : nat) (now : Z) (u : string)
    (w : World) r w' :
  (forall d, d ∈ urls w -> original_url d <> u) ->
  shorten_url fuel now u w = Some (r, w') ->
  exists code,
    r = Return (URLResponse.mk code u now) /\ is_code code = true /\
    fst (get_url_stats code w') =
      Return (Stats.mk code u (bson_datetime now) 0) /\
    fst (redirect_to_url code w') = Return (Redirect.mk u).
Proof.
  intros Hu%url_absent H.
  destruct (shorten_fresh_doc _ _ _ _ _ _ Hu H) as (code & -> & Hc & Hn & Hw).
  exists code. split_and!; try done.
  - rewrite (stats_found code w' (length (urls w))
               (Doc code u (bson_datetime now) 0)); [done |].
    rewrite Hw. by apply list_find_snoc.
  - rewrite (redirect_found code w' (length (urls w))
               (Doc code u (bson_datetime now) 0)); [done |].
    rewrite Hw. by apply list_find_snoc.
Qed.

(** ** Runs on any collection *)

Lemma urls_alter_inc (n : Z) (i : nat) (l : list document) :
  original_url <$> alter (inc_clicks n) i l = original_url <$> l.
Proof.
  rewrite (list_fmap_alter original_url (inc_clicks n) id).
  - by apply list_alter_id.
  - by apply Forall_forall.
Qed.

Lemma url_stored (u : string) (w : World) :
  u ∈ original_url <$> urls w <->
  exists i d, list_find (by_original_url u) (urls w) = Some (i, d).
Proof.
  split.
  - intros (d & -> & Hd)%list_elem_of_fmap.
    destruct (list_find_elem_of (by_original_url (original_url d)) (urls w) d)
      as [[i d'] H]; [done | done |]. by exists i, d'.
  - intros (i & d & (Hi & <- & _)%list_find_Some).
    apply list_elem_of_fmap_2. by eapply list_elem_of_lookup_2.
Qed.

Lemma handle_original_urls (fuel : nat) (r : request) (w w' : World) :
  handle fuel r w = Some w' ->
  original_url <$> urls w' = ((original_url <$> urls w) ++ new_url r w)%list.
Proof.
  destruct r as [now u | c | c]; unfold handle, new_url.
  - destruct (shorten_url fuel now u w) as [[r w1] |] eqn:E; [| done].
    cbn. intros [= <-].
    destruct (list_find (by_original_url u) (urls w)) as [[i d] |] eqn:Eu.
    + rewrite (shorten_existing _ _ _ _ i d Eu) in E. injection E as _ <-.
      rewrite decide_True, app_nil_r; [done |].
      apply url_stored. by exists i, d.
    + destruct (shorten_fresh _ _ _ _ _ _ Eu E) as (code & _ & _ & -> & _).
      rewrite decide_False, fmap_app; [done |].
      intros (i & d & H)%url_stored. congruence.
  - intros [= <-]. rewrite app_nil_r.
    destruct (list_find (by_short_code c) (urls w)) as [[i d] |] eqn:E.
    + rewrite (redirect_found c w i d E). cbn. apply urls_alter_inc.
    + by rewrite (redirect_missing c w E).
  - intros [= <-]. rewrite app_nil_r.
    destruct (list_find (by_short_code c) (urls w)) as [[i d] |] eqn:E.
    + by rewrite (stats_found c w i d E).
    + by rewrite (stats_missing c w E).
Qed.

(** Whatever the collection, one request leaves every document in its place
    and adds to its counter 0 or 1. *)
Lemma handle_fields (fuel : nat) (r : request) (w w' : World) i d :
  handle fuel r w = Some w' -> urls w !! i = Some d ->
  exists n, 0 <= n /\ urls w' !! i = Some (inc_clicks n d).
Proof.
  intros H Hi.
  destruct (handle_urls _ _ _ _ H)
    as [-> | [(now & u & code & _ & _ & ->) | (c & j & d0 & _ & _ & ->)]].
  - exists 0. by rewrite inc_clicks_0.
  - exists 0. rewrite inc_clicks_0. split; [done |].
    rewrite lookup_app_l; [done |]. by eapply lookup_lt_Some.
  - destruct (decide (j = i)) as [-> | Hne].
    + exists 1. by rewrite list_lookup_alter_eq, Hi.
    + exists 0. by rewrite inc_clicks_0, list_lookup_alter_ne.
Qed.

Lemma run_fields (rs : list (nat * request)) (w w' : World) i d :
  run rs w = Some w' -> urls w !! i = Some d ->
  exists n, 0 <= n /\ urls w' !! i = Some (inc_clicks n d).
Proof.
  revert w d. induction rs as [| [fuel r] rs IH]; intros w d; cbn [run].
  - intros [= <-] ->. exists 0. by rewrite inc_clicks_0.
  - destruct (handle fuel r w) as [w1 |] eqn:E; [| done].
    intros Hrun Hi.
    destruct (handle_fields _ _ _ _ _ _ E Hi) as (n1 & Hn1 & H1).
    destruct (IH _ _ Hrun H1) as (n2 & Hn2 & H2).
    exists (n1 + n2). split; [lia |]. by rewrite H2, inc_clicks_inc_clicks.
Qed.

(** What a submission that returns has answered, in terms of the document
    that carries the URL afterwards: either the URL had a document and the
    response is read from it, or it had none and the document was made from
    the response. *)
Lemma shorten_record (fuel : nat) (now : Z) (u : string) (w : World) r w' :
  shorten_url fuel now u w = Some (r, w') ->
  exists i d,
    list_find (by_original_url u) (urls w') = Some (i, d) /\
    ((list_find (by_original_url u) (urls w) = Some (i, d) /\
      r = Return (URLResponse.mk (short_code d) u (created_at d))) \/
     (list_find (by_original_url u) (urls w) = None /\
      r = Return (URLResponse.mk (short_code d) u now) /\
      created_at d = bson_datetime now)).
Proof.
  intros H.
  destruct (list_find (by_original_url u) (urls w)) as [[i d] |] eqn:E.
  - rewrite (shorten_existing _ _ _ _ i d E) in H. injection H as <- <-.
    exists i, d. split; [done |]. left. split; [done |].
    by apply list_find_Some in E as (_ & -> & _).
  - destruct (shorten_fresh _ _ _ _ _ _ E H) as (code & -> & _ & Hw & _).
    exists (length (urls w)), (Doc code u (bson_datetime now) 0).
    split; [| by right].
    rewrite Hw. by apply list_find_snoc.
Qed.

(** X9.  A request adds a document only when it is a submission of a URL
    that no document carries, and then exactly one, for that URL, after all
    the others; every other request leaves the stored URLs, their number and
    their order as they were. *)
Theorem handle_adds_new_url_only (fuel : nat) (r : request) (w w' : World) :
  handle fuel r w = Some w' ->
  original_url <$> urls w' = ((original_url <$> urls w) ++ new_url r w)%list /\
  length (urls w') = (length (urls w) + length (new_url r w))%nat.
Proof.
  intros H. pose proof (handle_original_urls _ _ _ _ H) as E.
  split; [exact E |].
  apply (f_equal length) in E. by rewrite length_app, !length_fmap in E.
Qed.

(** X10.  The answer to a URL is permanent: once a submission of [u] has
    returned, then after any further requests, on any collection, every new
    submission of [u] returns one and the same response and changes nothing.
    That response has the code and the URL of the first one, and the stored
    creation time: it is the first response itself when [u] had a document
    before, and has the first one's time cut to the millisecond when [u]
    was new. *)
Theorem shorten_url_permanent (fuel : nat) (now : Z) (u : string)
    (rs : list (nat * request)) (w w1 w2 : World) r :
  shorten_url fuel now u w = Some (r, w1) ->
  run rs w1 = Some w2 ->
  exists resp resp',
    r = Return resp /\
    (forall fuel' now',
       shorten_url fuel' now' u w2 = Some (Return resp', w2)) /\
    URLResponse.short_url resp' = URLResponse.short_url resp /\
    URLResponse.original_url resp' = URLResponse.original_url resp /\
    ((exists d, d ∈ urls w /\ original_url d = u) -> resp' = resp) /\
    ((forall d, d ∈ urls w -> original_url d <> u) ->
     URLResponse.created_at resp = now /\
     URLResponse.created_at resp' = bson_datetime now).
Proof.
  intros (i & d & Hf & Hcase)%shorten_record Hrun.
  pose proof Hf as (Hi & Hu & Hleast)%list_find_Some.
  unfold by_original_url in Hu.
  destruct (run_fields _ _ _ _ _ Hrun Hi) as (n & _ & Hi2).
  assert (Hf2 : forall fuel' now',
            shorten_url fuel' now' u w2 =
              Some (Return (URLResponse.mk (short_code d) u (created_at d)), w2)).
  { intros fuel' now'.
    rewrite (shorten_existing fuel' now' u w2 i (inc_clicks n d)).
    - cbn. by rewrite Hu.
    - apply list_find_Some. split_and!; [done | done |].
      intros j y Hj Hlt.
      destruct (lookup_lt_is_Some_2 (urls w1) j) as [y0 Hy0].
      { apply lookup_lt_Some in Hi. lia. }
      destruct (run_fields _ _ _ _ _ Hrun Hy0) as (m & _ & Hj2).
      assert (y = inc_clicks m y0) as -> by congruence.
      exact (Hleast j y0 Hy0 Hlt). }
  destruct Hcase as [[E ->] | (E & -> & Ht)].
  - eexists _, _. split_and!; try done.
    intros Hno. apply list_find_Some in E as (Hi0 & _ & _).
    destruct (Hno d); [by eapply list_elem_of_lookup_2 | done].
  - eexists _, _. split_and!; try done.
    intros (d0 & Hd0 & Hu0). exfalso.
    by apply (proj1 (list_find_absent (by_original_url u) (urls w)) E d0).
Qed.

(** X11.  A code that a submission has answered resolves to the submitted
    URL from then on: if codes are distinct before the submission, then
    after it and any further requests the redirect of that code returns the
    URL. *)
Theorem issued_code_resolves (fuel : nat) (now : Z) (u : string)
    (rs : list (nat * request)) (w w1 w2 : World) (resp : URLResponse.t) :
  NoDup (codes w) ->
  shorten_url fuel now u w = Some (Return resp, w1) ->
  run rs w1 = Some w2 ->
  fst (redirect_to_url (URLResponse.short_url resp) w2) = Return (Redirect.mk u).
Proof.
  intros Hnd Hs Hrun.
  assert (Hnd1 : NoDup (codes w1)).
  { apply (handle_NoDup fuel (Shorten now u) w w1 Hnd). unfold handle.
    by rewrite Hs. }
  pose proof (run_NoDup _ _ _ Hnd1 Hrun) as Hnd2.
  destruct (shorten_record _ _ _ _ _ _ Hs) as (i & d & Hf & Hcase).
  assert (Hcode : URLResponse.short_url resp = short_code d).
  { by destruct Hcase as [[_ [= ->]] | (_ & [= ->] & _)]. }
  apply list_find_Some in Hf as (Hi & Hu & _). unfold by_original_url in Hu.
  destruct (run_fields _ _ _ _ _ Hrun Hi) as (n & _ & Hi2).
  rewrite Hcode.
  destruct (list_find_elem_of (by_short_code (short_code d)) (urls w2)
              (inc_clicks n d)) as [[j d'] Hj];
    [by eapply list_elem_of_lookup_2 | done |].
  rewrite (redirect_found _ _ j d' Hj).
  apply list_find_Some in Hj as (Hj & Hc & _). unfold by_short_code in Hc.
  assert (j = i) as ->.
  { eapply (NoDup_lookup (codes w2)); [done | |]; unfold codes;
      rewrite list_lookup_fmap.
    - rewrite Hj. cbn. by rewrite Hc.
    - by rewrite Hi2. }
  assert (d' = inc_clicks n d) as -> by congruence.
  cbn. by rewrite Hu.
Qed.

(** ** Runs from an empty collection *)

Lemma first_submissions_NoDup (seen us : list string) :
  NoDup seen -> NoDup (seen ++ first_submissions seen us).
Proof.
  revert seen. induction us as [| u us IH]; intros seen Hnd; cbn.
  - by rewrite app_nil_r.
  - case_decide as Hu; [by apply IH |].
    rewrite cons_middle, (assoc_L (++)). apply IH.
    apply NoDup_app. split_and!; [done | | apply NoDup_singleton].
    intros x Hx ->%list_elem_of_singleton. done.
Qed.

Lemma first_submissions_elem (seen us : list string) (u : string) :
  u ∈ (seen ++ first_submissions seen us)%list <-> u ∈ seen \/ u ∈ us.
Proof.
  revert seen. induction us as [| v us IH]; intros seen; cbn.
  - rewrite app_nil_r. split; [by left | intros [H | H]; [done |]].
    by apply elem_of_nil in H.
  - case_decide as Hv.
    + rewrite IH, elem_of_cons. split; [tauto |].
      intros [H | [-> | H]]; tauto.
    + rewrite cons_middle, (assoc_L (++)), IH, elem_of_app,
        list_elem_of_singleton, elem_of_cons. tauto.
Qed.

Lemma run_original_urls (rs : list (nat * request)) (w w' : World) :
  run rs w = Some w' ->
  original_url <$> urls w' =
    ((original_url <$> urls w) ++
     first_submissions (original_url <$> urls w) (submitted rs))%list.
Proof.
  revert w. induction rs as [| [fuel r] rs IH]; intros w; cbn [run].
  - intros [= <-]. cbn. by rewrite app_nil_r.
  - destruct (handle fuel r w) as [w1 |] eqn:E; [| done].
    intros Hrun. rewrite (IH _ Hrun), (handle_original_urls _ _ _ _ E).
    destruct r as [now u | c | c]; cbn; rewrite ?app_nil_r; try done.
    case_decide; [by rewrite app_nil_r | by rewrite <- (assoc_L (++))].
Qed.

Lemma handle_well_formed (fuel : nat) (r : request) (w w' : World) :
  Forall well_formed (urls w) -> handle fuel r w = Some w' ->
  Forall well_formed (urls w').
Proof.
  intros Hwf. destruct r as [now u | c | c]; unfold handle.
  - destruct (shorten_url fuel now u w) as [[r w1] |] eqn:E; [| done].
    cbn. intros [= <-].
    destruct (list_find (by_original_url u) (urls w)) as [[i d] |] eqn:Eu.
    + rewrite (shorten_existing _ _ _ _ i d Eu) in E. by injection E as _ <-.
    + destruct (shorten_fresh_doc _ _ _ _ _ _ Eu E) as (code & _ & Hc & _ & ->).
      apply Forall_app. split; [done |]. by repeat constructor.
  - intros [= <-].
    destruct (list_find (by_short_code c) (urls w)) as [[i d] |] eqn:E.
    + rewrite (redirect_found c w i d E). cbn.
      apply Forall_alter; [done |]. intros x _ [Hx1 Hx2].
      split; [done | cbn; lia].
    + by rewrite (redirect_missing c w E).
  - intros [= <-].
    destruct (list_find (by_short_code c) (urls w)) as [[i d] |] eqn:E.
    + by rewrite (stats_found c w i d E).
    + by rewrite (stats_missing c w E).
Qed.

Lemma run_well_formed (rs : list (nat * request)) (w w' : World) :
  Forall well_formed (urls w) -> run rs w = Some w' ->
  Forall well_formed (urls w').
Proof.
  revert w. induction rs as [| [fuel r] rs IH]; intros w Hwf; cbn [run].
  - by intros [= <-].
  - destruct (handle fuel r w) as [w1 |] eqn:E; [| done].
    apply IH. by eapply handle_well_formed.
Qed.

(** X12.  After requests served one after the other from an empty
    collection, the stored URLs are exactly the submitted URLs, each once,
    in the order of their first submission. *)
Theorem stored_urls_are_first_submissions (rs : list (nat * request))
    (w0 w : World) :
  urls w0 = [] -> run rs w0 = Some w ->
  original_url <$> urls w = first_submissions [] (submitted rs) /\
  NoDup (original_url <$> urls w) /\
  (forall u, u ∈ original_url <$> urls w <-> u ∈ submitted rs).
Proof.
  intros H0 Hrun. pose proof (run_original_urls _ _ _ Hrun) as E.
  rewrite H0 in E. cbn in E. rewrite E. split_and!; [done | |].
  - apply (first_submissions_NoDup [] (submitted rs)), NoDup_nil_2.
  - intros u. rewrite (first_submissions_elem [] (submitted rs) u).
    split; [intros [H | H]; [by apply elem_of_nil in H | done] | by right].
Qed.

(** X13.  After requests served one after the other from an empty
    collection, every document has a well-formed code (six symbols of the
    alphabet) and a click counter that is not negative. *)
Theorem stored_documents_well_formed (rs : list (nat * request))
    (w0 w : World) (d : document) :
  urls w0 = [] -> run rs w0 = Some w -> d ∈ urls w ->
  String.length (short_code d) = 6%nat /\
  Forall (fun a => alnum a = true) (list_ascii_of_string (short_code d)) /\
  0 <= clicks d.
Proof.
  intros H0 Hrun Hd.
  assert (Hwf : Forall well_formed (urls w)).
  { eapply run_well_formed; [| exact Hrun]. rewrite H0. constructor. }
  rewrite Forall_forall in Hwf. destruct (Hwf d Hd) as [Hc Hk].
  unfold is_code in Hc. apply andb_true_iff in Hc as [Hlen Hall].
  split_and!; [by apply Nat.eqb_eq | | done].
  apply Forall_forall. intros a Ha.
  rewrite forallb_forall in Hall. by apply Hall, list_elem_of_In.
Qed.

(** X14.  After requests served one after the other from an empty
    collection, codes and URLs are in one-to-one correspondence: two stored
    documents have the same code exactly when they have the same URL, and
    then they are one document. *)
Theorem codes_and_urls_one_to_one (rs : list (nat * request))
    (w0 w : World) (d1 d2 : document) :
  urls w0 = [] -> run rs w0 = Some w -> d1 ∈ urls w -> d2 ∈ urls w ->
  (short_code d1 = short_code d2 <-> original_url d1 = original_url d2) /\
  (short_code d1 = short_code d2 -> d1 = d2).
Proof.
  intros H0 Hrun H1 H2.
  assert (Hc : NoDup (short_code <$> urls w)).
  { apply (run_NoDup rs w0 w); [| done]. unfold codes. rewrite H0.
    apply NoDup_nil_2. }
  assert (Hu : NoDup (original_url <$> urls w)).
  { rewrite (run_original_urls _ _ _ Hrun), H0.
    apply (first_submissions_NoDup [] (submitted rs)), NoDup_nil_2. }
  split_and!.
  - split; intros E.
    + by rewrite (NoDup_fmap_eq short_code (urls w) d1 d2).
    + by rewrite (NoDup_fmap_eq original_url (urls w) d1 d2).
  - by apply (NoDup_fmap_eq short_code (urls w)).
Qed.

(** ** The allowed origins *)

Lemma split_not_nil (sep : ascii) (s : string) : split sep s <> [].
Proof.
  destruct s as [| c s]; cbn; [done |].
  case_decide; [done |]. by destruct (split sep s).
Qed.

Lemma concat_cons (sep x : string) (l : list string) :
  l <> [] -> String.concat sep (x :: l) = x ++ sep ++ String.concat sep l.
Proof. by destruct l. Qed.

Lemma concat_split (sep : ascii) (s : string) :
  String.concat (String sep EmptyString) (split sep s) = s.
Proof.
  induction s as [| c s IH]; cbn [split]; [done |].
  pose proof (split_not_nil sep s) as Hne.
  case_decide as Hc.
  - subst c. rewrite concat_cons by done. by rewrite IH.
  - destruct (split sep s) as [| piece pieces]; [done |].
    destruct pieces as [| piece' pieces].
    + cbn in IH |- *. by rewrite IH.
    + rewrite concat_cons in IH |- * by done. by rewrite <- IH.
Qed.

Lemma split_pieces (sep : ascii) (s : string) :
  Forall (fun piece => occurrences sep piece = O) (split sep s) /\
  length (split sep s) = S (occurrences sep s).
Proof.
  induction s as [| c s [IH1 IH2]]; cbn [split occurrences].
  - split; [by repeat constructor | done].
  - pose proof (split_not_nil sep s) as Hne.
    case_decide as Hc.
    + split; [by constructor | cbn; by rewrite IH2].
    + destruct (split sep s) as [| piece pieces]; [done |].
      apply Forall_cons in IH1 as [Hp Hps]. split.
      * constructor; [| done]. cbn. by rewrite decide_False.
      * cbn in IH2 |- *. done.
Qed.

(** X15.  The allowed origins, joined with commas, give back the configured
    value (that of the environment variable, or the default when it is not
    set): splitting loses nothing, and there is always at least one
    origin. *)
Theorem allowed_origins_join (environ : string -> option string) :
  String.concat "," (ALLOWED_ORIGINS environ) =
    getenv environ "ALLOWED_ORIGINS" "https://url-shortner-lime-one.vercel.app/" /\
  ALLOWED_ORIGINS environ <> [].
Proof.
  split; [apply concat_split | apply split_not_nil].
Qed.

(** X16.  No allowed origin contains a comma, and there is one origin more
    than there are commas in the configured value; a value without comma is
    a single origin, itself. *)
Theorem allowed_origins_pieces (environ : string -> option string) :
  Forall (fun origin => occurrences "," origin = O) (ALLOWED_ORIGINS environ) /\
  length (ALLOWED_ORIGINS environ) =
    S (occurrences ","
         (getenv environ "ALLOWED_ORIGINS"
            "https://url-shortner-lime-one.vercel.app/")) /\
  (occurrences ","
     (getenv environ "ALLOWED_ORIGINS"
        "https://url-shortner-lime-one.vercel.app/") = O ->
   ALLOWED_ORIGINS environ =
     [getenv environ "ALLOWED_ORIGINS"
        "https://url-shortner-lime-one.vercel.app/"]).
Proof.
  unfold ALLOWED_ORIGINS.
  destruct (split_pieces ","
              (getenv environ "ALLOWED_ORIGINS"
                 "https://url-shortner-lime-one.vercel.app/")) as [H1 H2].
  split_and!; [done | done |]. intros H0.
  pose proof (concat_split ","
                (getenv environ "ALLOWED_ORIGINS"
                   "https://url-shortner-lime-one.vercel.app/")) as Hj.
  rewrite H0 in H2.
  destruct (split _ _) as [| o [| o' os]]; [done | | done].
  cbn in Hj. by rewrite Hj.
Qed.

(** ** The further properties at concrete inputs *)

Example split_examples :
  split "," "a,,b," = ["a"; ""; "b"; ""] /\ split "," "" = [""] /\
  ALLOWED_ORIGINS environ_two = ["http://localhost:3000"; "https://example.org"].
Proof. by split_and!. Qed.

Lemma generate_short_code_no_symbols_witness :
  -3 <= 0 /\ generate_short_code (-3) w_one = (Return "", w_one).
Proof.
  split; [lia |].
  apply (proj2 (generate_short_code_no_symbols (-3) w_one)). lia.
Defined.

Lemma generate_short_code_injective_witness :
  fst (generate_short_code 6 w_empty) = fst (generate_short_code 6 w_shifted).
Proof.
  apply (proj2 (generate_short_code_injective 6 w_empty w_shifted
                  ltac:(intros j Hj; change (Z.to_nat 6) with 6%nat in Hj;
                        cbn; lia))).
  intros j Hj. cbn. lia.
Defined.

Lemma generate_short_code_covers_witness :
  fst (generate_short_code 6
         (MkWorld [doc_a] (entropy_for (list_ascii_of_string "Zz9aB0") 4) 4)) =
    Return "Zz9aB0".
Proof.
  apply (generate_short_code_covers (list_ascii_of_string "Zz9aB0") [doc_a] 4).
  refine (bool_decide_unpack _ _). by vm_compute.
Defined.

Lemma get_url_stats_reads_witness :
  snd (get_url_stats "abcdef" w_mixed) = w_mixed /\
  fst (get_url_stats "abcdef" w_mixed) = Return (Stats.mk "abcdef" url_a 17000 2).
Proof.
  split.
  - apply (proj1 (get_url_stats_reads "abcdef" w_mixed)).
  - apply (proj2 (get_url_stats_reads "abcdef" w_mixed)
             (Doc "abcdef" url_a 17000 2)).
    reflexivity.
Defined.

Lemma redirect_other_code_unchanged_witness :
  fst (get_url_stats "ghijkl" (snd (redirect_to_url "abcdef" w_resubmitted))) =
    fst (get_url_stats "ghijkl" w_resubmitted) /\
  fst (redirect_to_url "ghijkl" (snd (redirect_to_url "abcdef" w_resubmitted))) =
    fst (redirect_to_url "ghijkl" w_resubmitted).
Proof.
  apply (redirect_other_code_unchanged "abcdef" "ghijkl" w_resubmitted).
  discriminate.
Defined.

Lemma stats_after_redirects_witness :
  fst (redirects 3 "abcdef" w_resubmitted) =
    replicate 3 (Return (Redirect.mk url_a)) /\
  fst (get_url_stats "abcdef" (snd (redirects 3 "abcdef" w_resubmitted))) =
    Return (Stats.mk "abcdef" url_a 17000 (1 + 3)).
Proof.
  apply (stats_after_redirects 3 "abcdef" w_resubmitted
           (Stats.mk "abcdef" url_a 17000 1)).
  reflexivity.
Defined.


Lemma w_one_no_url_b (d : document) : d ∈ urls w_one -> original_url d <> url_b.
Proof. intros ->%list_elem_of_singleton. discriminate. Defined.

Lemma shorten_url_new_round_trip_witness :
  exists code,
    Return (URLResponse.mk "ghijkl" url_b 18750) =
      Return (URLResponse.mk code url_b 18750) /\
    is_code code = true /\
    fst (get_url_stats code (MkWorld [doc_a; doc_b] (fun i => i) 12)) =
      Return (Stats.mk code url_b (bson_datetime 18750) 0) /\
    fst (redirect_to_url code (MkWorld [doc_a; doc_b] (fun i => i) 12)) =
      Return (Redirect.mk url_b).
Proof.
  apply (shorten_url_new_round_trip 1 18750 url_b w_one _ _ w_one_no_url_b).
  reflexivity.
Defined.

Lemma handle_adds_new_url_only_witness :
  (original_url <$> urls (MkWorld [doc_a; doc_b] (fun i => i) 12) =
     [url_a; url_b] /\
   length (urls (MkWorld [doc_a; doc_b] (fun i => i) 12)) = 2%nat) /\
  (original_url <$> urls w_one = [url_a] /\ length (urls w_one) = 1%nat).
Proof.
  split.
  - apply (handle_adds_new_url_only 1 (Shorten 18750 url_b) w_one). reflexivity.
  - apply (handle_adds_new_url_only 1 (Shorten 18750 url_a) w_one). reflexivity.
Defined.

Lemma shorten_url_permanent_witness :
  exists resp resp',
    Return (URLResponse.mk "abcdef" url_a 17250) = Return resp /\
    (forall fuel' now',
       shorten_url fuel' now' url_a w_mixed = Some (Return resp', w_mixed)) /\
    URLResponse.short_url resp' = URLResponse.short_url resp /\
    URLResponse.original_url resp' = URLResponse.original_url resp /\
    ((exists d, d ∈ urls w_empty /\ original_url d = url_a) -> resp' = resp) /\
    ((forall d, d ∈ urls w_empty -> original_url d <> url_a) ->
     URLResponse.created_at resp = 17250 /\
     URLResponse.created_at resp' = bson_datetime 17250).
Proof.
  apply (shorten_url_permanent 1 17250 url_a rs_mixed w_empty w_one w_mixed);
    reflexivity.
Defined.

Lemma issued_code_resolves_witness :
  fst (redirect_to_url "abcdef" w_mixed) = Return (Redirect.mk url_a).
Proof.
  apply (issued_code_resolves 1 17250 url_a rs_mixed w_empty w_one w_mixed
           (URLResponse.mk "abcdef" url_a 17250));
    [apply NoDup_nil_2 | reflexivity | reflexivity].
Defined.

Lemma stored_urls_are_first_submissions_witness :
  original_url <$> urls w_resubmitted = [url_a; url_b] /\
  NoDup (original_url <$> urls w_resubmitted) /\
  (forall u, u ∈ original_url <$> urls w_resubmitted <->
             u ∈ [url_a; url_b; url_a]).
Proof.
  apply (stored_urls_are_first_submissions rs_resubmit w_empty w_resubmitted);
    reflexivity.
Defined.

Lemma stored_documents_well_formed_witness :
  String.length (short_code doc_b) = 6%nat /\
  Forall (fun a => alnum a = true) (list_ascii_of_string (short_code doc_b)) /\
  0 <= clicks doc_b.
Proof.
  apply (stored_documents_well_formed rs_resubmit w_empty w_resubmitted doc_b);
    [reflexivity | reflexivity |].
  apply list_elem_of_further, list_elem_of_here.
Defined.

Lemma codes_and_urls_one_to_one_witness :
  (short_code doc_a1 = short_code doc_b <->
   original_url doc_a1 = original_url doc_b) /\
  (short_code doc_a1 = short_code doc_b -> doc_a1 = doc_b).
Proof.
  apply (codes_and_urls_one_to_one rs_resubmit w_empty w_resubmitted);
    [reflexivity | reflexivity | apply list_elem_of_here |].
  apply list_elem_of_further, list_elem_of_here.
Defined.

Lemma allowed_origins_pieces_witness :
  ALLOWED_ORIGINS environ_unset = ["https://url-shortner-lime-one.vercel.app/"] /\
  length (ALLOWED_ORIGINS environ_two) = 2%nat.
Proof.
  split.
  - apply (proj2 (proj2 (allowed_origins_pieces environ_unset))). reflexivity.
  - apply (proj1 (proj2 (allowed_origins_pieces environ_two))).
Defined.
